(** * nestjs-prisma: the Prisma client exception filter and the custom client service

    A shallow embedding of
    - [PrismaClientExceptionFilter] (constructor, [catch],
      [catchClientKnownRequestError], [defaultExceptionMessage]) and
    - [CustomPrismaService]
    together with the properties their specification states about them.

    Conventions of the embedding.
    - A JavaScript string is the list of its UTF-16 code units ([list N]).
    - A plain JavaScript object used as a dictionary is a [gmap] over its own
      enumerable string keys, together with what it inherits from
      [Object.prototype]: reading the message [obj[k]] finds the own
      property first and then the inherited member of that name
      ([get_message]), and [Object.assign] writes with [[Set]], which for
      the name [__proto__] reaches the inherited setter ([Object_set]).
    - The two things the filter can do besides computing are recorded as
      [effect]s in a trace: building an [HttpException] and calling the
      inherited [BaseExceptionFilter.catch]. *)

From Stdlib Require Import ZArith NArith String Ascii List Lia.
From stdpp Require Import base option list gmap fin_maps.

Local Open Scope Z_scope.

(** ** JavaScript strings *)

Module JsString.

Abbreviation jsstring := (list N).

(** An ASCII literal as code units. *)
Definition js (s : string) : jsstring :=
  N_of_ascii <$> list_ascii_of_string s.

(** ['→'], U+2192, and ['\n'], U+000A. *)
Definition arrowChar : N := 8594%N.
Definition arrow : jsstring := [arrowChar].
Definition newline : N := 10%N.
Definition nl : jsstring := [newline].

Definition code_unit_eqb (a b : N) : bool := N.eqb a b.

Fixpoint startsWith (s search : jsstring) {struct search} : bool :=
  match search, s with
  | [], _ => true
  | _ :: _, [] => false
  | c :: search', d :: s' => code_unit_eqb c d && startsWith s' search'
  end.

(** [indexOfFrom s search k]: the search of [String.prototype.indexOf],
    [k] being the index of the head of [s] in the whole string. *)
Fixpoint indexOfFrom (s search : jsstring) (k : Z) : Z :=
  if startsWith s search then k
  else match s with
       | [] => -1
       | _ :: s' => indexOfFrom s' search (k + 1)
       end.

(** [s.indexOf(search)]: the least index at which [search] occurs in [s],
    and [-1] when there is none. *)
Definition indexOf (s search : jsstring) : Z := indexOfFrom s search 0.

(** [s.substring(start)], with one argument: [start] is clamped to
    [0 .. s.length] and the end is [s.length]. *)
Definition substring (s : jsstring) (start : Z) : jsstring :=
  let len := Z.of_nat (length s) in
  let finalStart := Z.min (Z.max start 0) len in
  let finalEnd := Z.min (Z.max len 0) len in
  let from := Z.min finalStart finalEnd in
  let to := Z.max finalStart finalEnd in
  take (Z.to_nat (to - from)) (drop (Z.to_nat from) s).

(** [s.replace(/c/g, by)] for a pattern that is one literal character. *)
Definition replaceAll (c : N) (by_ : jsstring) (s : jsstring) : jsstring :=
  mjoin ((λ d, if code_unit_eqb d c then by_ else [d]) <$> s).

(** WhiteSpace and LineTerminator of ECMAScript, which [trim] removes:
    TAB, VT, FF, SP, NBSP, ZWNBSP, the Space_Separator category, and
    LF, CR, LS, PS. *)
Definition isWhiteSpace (c : N) : bool :=
  ((9 <=? c) && (c <=? 13) || (c =? 32) || (c =? 160) || (c =? 5760)
   || (8192 <=? c) && (c <=? 8202) || (c =? 8232) || (c =? 8233)
   || (c =? 8239) || (c =? 8287) || (c =? 12288) || (c =? 65279))%N.

Fixpoint trimStart (s : jsstring) : jsstring :=
  match s with
  | [] => []
  | c :: s' => if isWhiteSpace c then trimStart s' else s
  end.

Definition trimEnd (s : jsstring) : jsstring :=
  reverse (trimStart (reverse s)).

Definition trim (s : jsstring) : jsstring := trimEnd (trimStart s).

End JsString.

Import JsString.

(** ** The data of the filter *)

(** [Prisma.PrismaClientKnownRequestError], by the two fields the filter
    reads. *)
Record PrismaClientKnownRequestError := mkPrismaError {
  code : jsstring;
  message : jsstring
}.

(** [ArgumentsHost], by the one method the filter calls. *)
Record ArgumentsHost := mkHost {
  getType : jsstring
}.

(** [ErrorCodesStatusMapping] and [ErrorCodesMessageMapping]. *)
Abbreviation ErrorCodesStatusMapping := (gmap jsstring Z).
Abbreviation ErrorCodesMessageMapping := (gmap jsstring jsstring).

Module HttpStatus.
Definition BAD_REQUEST : Z := 400.
Definition NOT_FOUND : Z := 404.
Definition CONFLICT : Z := 409.
End HttpStatus.

(** What the filter can end up with as the message of a response: a
    string, or the member of [Object.prototype] that a read of the message
    mapping found under the name of the code (a function; the prototype
    object itself for [__proto__]). *)
Inductive message_value :=
| Text (s : jsstring)
| Member (name : jsstring).

(** The object literal [{ statusCode, message }].  [statusCode] is the value
    read from the status mapping, [None] being [undefined]. *)
Record ResponseBody := mkBody {
  body_statusCode : option Z;
  body_message : message_value
}.

(** [new HttpException(response, status)]. *)
Record HttpException := mkHttpException {
  getResponse : ResponseBody;
  getStatus : option Z
}.

(** An exception object as the filter passes it on: [Same e] is the object
    received as [exception], handed over as it is; [Built h] is an
    [HttpException] the filter constructed. *)
Inductive thrown :=
| Same (e : PrismaClientKnownRequestError)
| Built (h : HttpException).

(** What [catch] evaluates to: nothing ([undefined], falling off the end of
    the function), an exception object, or whatever the inherited
    [catch] returned. *)
Inductive value :=
| Undefined
| Returned (t : thrown)
| FromBase.

Inductive effect :=
| NewHttpException (h : HttpException)
| SuperCatch (t : thrown) (host : ArgumentsHost).

(** ** A trace monad for the two effects *)

Module Trace.

Definition M (A : Type) : Type := A * list effect.

Definition ret {A} (a : A) : M A := (a, []).

Definition bind {A B} (m : M A) (k : A → M B) : M B :=
  let '(a, t1) := m in
  let '(b, t2) := k a in
  (b, t1 ++ t2).

Definition emit (e : effect) : M unit := (tt, [e]).

Definition result {A} (m : M A) : A := m.1.
Definition trace {A} (m : M A) : list effect := m.2.

End Trace.

Notation "'let*' x ':=' m 'in' k" := (Trace.bind m (λ x, k))
  (at level 10, x name, m at level 100, k at level 200).

(** [new HttpException(response, status)] *)
Definition new_HttpException (response : ResponseBody) (status : option Z)
  : Trace.M HttpException :=
  let h := mkHttpException response status in
  let* _ := Trace.emit (NewHttpException h) in
  Trace.ret h.

(** [super.catch(exception, host)]: the base filter writes the response;
    here the call and its arguments are recorded. *)
Definition super_catch (t : thrown) (host : ArgumentsHost) : Trace.M value :=
  let* _ := Trace.emit (SuperCatch t host) in
  Trace.ret FromBase.

(** ** Objects as dictionaries *)

(** [Object.keys(obj)] *)
Definition Object_keys {V} (obj : gmap jsstring V) : list jsstring :=
  (map_to_list obj).*1.

(** [keys.includes(k)] *)
Definition includes (keys : list jsstring) (k : jsstring) : bool :=
  bool_decide (k ∈ keys).

(** The names [Object.prototype] defines: the members every plain object
    inherits. *)
Definition Object_prototype_names : list jsstring :=
  js <$> ["constructor"; "hasOwnProperty"; "isPrototypeOf";
          "propertyIsEnumerable"; "toLocaleString"; "toString"; "valueOf";
          "__proto__"; "__defineGetter__"; "__defineSetter__";
          "__lookupGetter__"; "__lookupSetter__"]%string.

Definition inherited (k : jsstring) : bool :=
  bool_decide (k ∈ Object_prototype_names).

(** [obj[k]] on a message mapping: the own property when there is one, else
    the inherited member of that name, else [undefined]. *)
Definition get_message (obj : gmap jsstring jsstring) (k : jsstring)
  : option message_value :=
  match obj !! k with
  | Some s => Some (Text s)
  | None => if inherited k then Some (Member k) else None
  end.

(** The write [target[k] = v] of [Object.assign] ([[Set]]) for a value that
    is a number or a string: an own property is updated; a new name becomes
    an own property, except [__proto__], which is handed to the inherited
    setter, and that setter ignores a value that is neither an object nor
    [null]. *)
Definition Object_set {V} (target : gmap jsstring V) (k : jsstring) (v : V)
  : gmap jsstring V :=
  match target !! k with
  | Some _ => <[k := v]> target
  | None =>
      if bool_decide (k = js "__proto__") then target else <[k := v]> target
  end.

(** The own properties of an override that [Object.assign] writes to a plain
    object: all but [__proto__]. *)
Definition assignable {V} (source : gmap jsstring V) : gmap jsstring V :=
  delete (js "__proto__") source.

(** [Object.assign(target, source)]: every own property of [source] is set
    on [target]. *)
Definition Object_assign {V} (target source : gmap jsstring V)
  : gmap jsstring V :=
  map_fold (λ k v acc, Object_set acc k v) target source.

(** ** The filter *)

Section Filter.

(** The protocol adapter of the hosting framework; the filter only hands
    it to its base class. *)
Context {HttpServer : Type}.

Record PrismaClientExceptionFilter := mkFilter {
  applicationRef : option HttpServer;
  errorCodesStatusMapping : ErrorCodesStatusMapping;
  errorCodesMessageMapping : ErrorCodesMessageMapping
}.

(** The field initialisers. *)
Definition defaultStatusMapping : ErrorCodesStatusMapping :=
  <[js "P2000" := HttpStatus.BAD_REQUEST]>
    (<[js "P2002" := HttpStatus.CONFLICT]>
       (<[js "P2025" := HttpStatus.NOT_FOUND]> ∅)).

Definition defaultMessageMapping : ErrorCodesMessageMapping := ∅.

(** [constructor(applicationRef?, errorCodesStatusMapping = null,
    errorCodesMessageMapping = null)]; [None] is [null] or a missing
    argument. *)
Definition constructor
    (appRef : option HttpServer)
    (statusOverride : option ErrorCodesStatusMapping)
    (messageOverride : option ErrorCodesMessageMapping)
  : PrismaClientExceptionFilter :=
  let this := mkFilter appRef defaultStatusMapping defaultMessageMapping in
  let this :=
    match statusOverride with
    | Some o =>
        mkFilter (applicationRef this)
                 (Object_assign (errorCodesStatusMapping this) o)
                 (errorCodesMessageMapping this)
    | None => this
    end in
  let this :=
    match messageOverride with
    | Some o =>
        mkFilter (applicationRef this)
                 (errorCodesStatusMapping this)
                 (Object_assign (errorCodesMessageMapping this) o)
    | None => this
    end in
  this.

Definition defaultExceptionMessage
    (exception : PrismaClientKnownRequestError) : jsstring :=
  let shortMessage :=
    substring (message exception) (indexOf (message exception) arrow) in
  (js "[" ++ code exception ++ js "]: ")
    ++ trim (replaceAll newline []
               (substring shortMessage (indexOf shortMessage nl))).

(** [a || b] on what a read of the message mapping gives: the empty string
    and [undefined] are falsy, every other string and every inherited
    member is truthy. *)
Definition or_else (a : option message_value) (b : message_value)
  : message_value :=
  match a with
  | Some (Text (c :: s)) => Text (c :: s)
  | Some (Member name) => Member name
  | Some (Text []) | None => b
  end.

Definition catchClientKnownRequestError
    (this : PrismaClientExceptionFilter)
    (exception : PrismaClientKnownRequestError)
    (host : ArgumentsHost) : Trace.M value :=
  (* the value read here is used only behind the test on [Object.keys],
     where the own entry exists and is what the read finds *)
  let statusCode := errorCodesStatusMapping this !! code exception in
  let message :=
    or_else (get_message (errorCodesMessageMapping this) (code exception))
            (Text (defaultExceptionMessage exception)) in
  if bool_decide (getType host = js "http") then
    if negb (includes (Object_keys (errorCodesStatusMapping this))
                      (code exception))
    then super_catch (Same exception) host
    else
      let* h := new_HttpException (mkBody statusCode message) statusCode in
      super_catch (Built h) host
  else if bool_decide (getType host = js "graphql") then
    if negb (includes (Object_keys (errorCodesStatusMapping this))
                      (code exception))
    then Trace.ret (Returned (Same exception))
    else
      let* h := new_HttpException (mkBody statusCode message) statusCode in
      Trace.ret (Returned (Built h))
  else Trace.ret Undefined.

Definition catch
    (this : PrismaClientExceptionFilter)
    (exception : PrismaClientKnownRequestError)
    (host : ArgumentsHost) : Trace.M value :=
  catchClientKnownRequestError this exception host.

(** The message the filter puts into the body it builds, and the exception
    it builds for a mapped code: the two expressions of
    [catchClientKnownRequestError], named for the statements below. *)
Definition responseMessage
    (this : PrismaClientExceptionFilter)
    (exception : PrismaClientKnownRequestError) : message_value :=
  or_else (get_message (errorCodesMessageMapping this) (code exception))
          (Text (defaultExceptionMessage exception)).

Definition mappedException
    (this : PrismaClientExceptionFilter)
    (exception : PrismaClientKnownRequestError)
    (statusCode : Z) : HttpException :=
  mkHttpException (mkBody (Some statusCode) (responseMessage this exception))
                  (Some statusCode).

End Filter.

Arguments PrismaClientExceptionFilter : clear implicits.

(** ** The custom client service *)

Module CustomPrisma.

(** [class CustomPrismaService<Client>] with its parameter property
    [public client: Client]. *)
Record CustomPrismaService (Client : Type) := mkService {
  client : Client
}.
Arguments mkService {Client} _.
Arguments client {Client} _.

Definition constructor {Client} (client : Client)
  : CustomPrismaService Client :=
  mkService client.

(** The field is public and mutable: [service.client = c]. *)
Definition set_client {Client} (this : CustomPrismaService Client)
    (c : Client) : CustomPrismaService Client :=
  mkService c.

End CustomPrisma.

(** ** What a run of the filter did *)

(** The [HttpException]s built during a run, in order. *)
Definition constructed (t : list effect) : list HttpException :=
  omap (λ ev, match ev with NewHttpException h => Some h | _ => None end) t.

(** The exception objects handed to the inherited [catch], in order. *)
Definition delegated (t : list effect) : list thrown :=
  omap (λ ev, match ev with SuperCatch x _ => Some x | _ => None end) t.

(** The messages of the bodies built during a run. *)
Definition responseMessages (r : Trace.M value) : list message_value :=
  (body_message ∘ getResponse) <$> constructed (Trace.trace r).

(** The diagnostic text ["... → \n  Some detail here\n"]. *)
Definition example_text : jsstring :=
  js "... " ++ arrow ++ js " " ++ nl ++ js "  Some detail here" ++ nl.

(** ** The derivation of the default message, in the words of the
    specification *)

Module Spec.

(** The substring of [s] that starts at the first [c]; there is none
    when [c] does not occur. *)
Fixpoint fromFirst (c : N) (s : jsstring) : option jsstring :=
  match s with
  | [] => None
  | d :: s' => if code_unit_eqb d c then Some s else fromFirst c s'
  end.

(** Everything after the first [c] of [s]. *)
Definition afterFirst (c : N) (s : jsstring) : option jsstring :=
  tail <$> fromFirst c s.

Definition stripNewlines (s : jsstring) : jsstring :=
  filter (λ d, d ≠ newline) s.

Definition bracketed (code : jsstring) : jsstring :=
  js "[" ++ code ++ js "]: ".

(** Locate the substring starting at the first arrow; within it take
    everything after its first newline; strip newlines; trim; prefix
    the code in brackets. *)
Definition derivedMessage (code text : jsstring) : option jsstring :=
  short ← fromFirst arrowChar text;
  detail ← afterFirst newline short;
  Some (bracketed code ++ trim (stripNewlines detail)).

End Spec.

(** ** The provider of the filter *)

Section Provider.

Context {HttpServer : Type}.

(** The tokens the provider names: [APP_FILTER] and the class
    [HttpAdapterHost] used as a token. *)
Inductive InjectionToken :=
| APP_FILTER
| HttpAdapterHost_token.

(** [HttpAdapterHost], by the field the factory destructures. *)
Record HttpAdapterHost := mkHttpAdapterHost {
  httpAdapter : HttpServer
}.

(** The object literal [{ provide, useFactory, inject }]. *)
Record FilterProvider := mkFilterProvider {
  provide : InjectionToken;
  useFactory : HttpAdapterHost → PrismaClientExceptionFilter HttpServer;
  inject : list InjectionToken
}.

(** [providePrismaClientExceptionFilter(errorCodesStatusMapping?,
    errorCodesmessageMapping?)]; a missing argument reaches the
    constructor as [undefined], which its default parameter turns into
    [null]. *)
Definition providePrismaClientExceptionFilter
    (statusOverride : option ErrorCodesStatusMapping)
    (messageOverride : option ErrorCodesMessageMapping) : FilterProvider :=
  mkFilterProvider
    APP_FILTER
    (λ host, constructor (Some (httpAdapter host)) statusOverride messageOverride)
    [HttpAdapterHost_token].

End Provider.

Arguments HttpAdapterHost : clear implicits.
Arguments FilterProvider : clear implicits.

(** ** The runs of [catch] *)

(** The five shapes of a run. *)
Inductive run_shape {HttpServer : Type}
    (this : PrismaClientExceptionFilter HttpServer)
    (exception : PrismaClientKnownRequestError) (host : ArgumentsHost)
  : Trace.M value → Prop :=
| run_http_unmapped :
    getType host = js "http" →
    errorCodesStatusMapping this !! code exception = None →
    run_shape this exception host
      (FromBase, [SuperCatch (Same exception) host])
| run_http_mapped v :
    getType host = js "http" →
    errorCodesStatusMapping this !! code exception = Some v →
    run_shape this exception host
      (FromBase,
       [NewHttpException (mappedException this exception v);
        SuperCatch (Built (mappedException this exception v)) host])
| run_graphql_unmapped :
    getType host = js "graphql" →
    errorCodesStatusMapping this !! code exception = None →
    run_shape this exception host (Returned (Same exception), [])
| run_graphql_mapped v :
    getType host = js "graphql" →
    errorCodesStatusMapping this !! code exception = Some v →
    run_shape this exception host
      (Returned (Built (mappedException this exception v)),
       [NewHttpException (mappedException this exception v)])
| run_other :
    getType host ≠ js "http" →
    getType host ≠ js "graphql" →
    run_shape this exception host (Undefined, []).

(** ** What the two [substring] calls select *)

(** The part of [s] from its first [c] on, and all of [s] when it has no
    [c]. *)
Definition fromFirstOrAll (c : N) (s : jsstring) : jsstring :=
  default s (Spec.fromFirst c s).

(** A string that neither starts nor ends with white space. *)
Definition trimmed (s : jsstring) : Prop :=
  (∀ c, head s = Some c → isWhiteSpace c = false)
  ∧ (∀ c, last s = Some c → isWhiteSpace c = false).

(** ** Facts about the string operations *)

Section StringFacts.

Implicit Types (s t pre : jsstring) (c d : N) (k : Z).

Lemma code_unit_eqb_eq c d : code_unit_eqb c d = true ↔ c = d.
Proof. unfold code_unit_eqb. apply N.eqb_eq. Qed.

Lemma code_unit_eqb_refl c : code_unit_eqb c c = true.
Proof. by apply code_unit_eqb_eq. Qed.

Lemma code_unit_eqb_ne c d : c ≠ d → code_unit_eqb c d = false.
Proof. unfold code_unit_eqb. intros. by apply N.eqb_neq. Qed.

Lemma startsWith_char s c :
  startsWith s [c] = match s with d :: _ => code_unit_eqb c d | [] => false end.
Proof. destruct s as [|d s]; simpl; [done|]. by rewrite andb_true_r. Qed.

Lemma indexOfFrom_absent c s k : c ∉ s → indexOfFrom s [c] k = -1.
Proof.
  revert k. induction s as [|d s IH]; intros k Hc; [done|].
  apply not_elem_of_cons in Hc as [Hne Hc].
  cbn [indexOfFrom]. rewrite startsWith_char, code_unit_eqb_ne by done.
  by apply IH.
Qed.

Lemma indexOfFrom_first c pre t k :
  c ∉ pre → indexOfFrom (pre ++ c :: t) [c] k = k + Z.of_nat (length pre).
Proof.
  revert k. induction pre as [|d pre IH]; intros k Hc.
  - cbn [app indexOfFrom length]. rewrite startsWith_char, code_unit_eqb_refl. lia.
  - apply not_elem_of_cons in Hc as [Hne Hc].
    cbn [app indexOfFrom]. rewrite startsWith_char, code_unit_eqb_ne by done.
    rewrite IH by done. cbn [length]. lia.
Qed.

Lemma indexOf_absent c s : c ∉ s → indexOf s [c] = -1.
Proof. apply indexOfFrom_absent. Qed.

Lemma indexOf_first c pre t :
  c ∉ pre → indexOf (pre ++ c :: t) [c] = Z.of_nat (length pre).
Proof. intros. unfold indexOf. by rewrite indexOfFrom_first. Qed.

(** A start index that is not positive selects the whole string. *)
Lemma substring_nonpos s k : k ≤ 0 → substring s k = s.
Proof.
  intros Hk. unfold substring.
  replace (Z.max k 0) with 0 by lia.
  replace (Z.min 0 (Z.of_nat (length s))) with 0 by lia.
  replace (Z.max (Z.of_nat (length s)) 0) with (Z.of_nat (length s)) by lia.
  rewrite Z.min_id.
  replace (Z.min 0 (Z.of_nat (length s))) with 0 by lia.
  replace (Z.max 0 (Z.of_nat (length s))) with (Z.of_nat (length s)) by lia.
  rewrite Z.sub_0_r, Nat2Z.id. cbn [Z.to_nat drop].
  by rewrite firstn_all.
Qed.

Lemma substring_split pre t :
  substring (pre ++ t) (Z.of_nat (length pre)) = t.
Proof.
  unfold substring. rewrite length_app, Nat2Z.inj_add.
  set (a := Z.of_nat (length pre)). set (b := Z.of_nat (length t)).
  assert (0 ≤ a ∧ 0 ≤ b) as [Ha Hb] by (unfold a, b; lia).
  replace (Z.max a 0) with a by lia.
  replace (Z.min a (a + b)) with a by lia.
  replace (Z.max (a + b) 0) with (a + b) by lia.
  rewrite Z.min_id.
  replace (Z.min a (a + b)) with a by lia.
  replace (Z.max a (a + b)) with (a + b) by lia.
  replace (a + b - a) with b by lia.
  unfold a, b. rewrite !Nat2Z.id, drop_app_length.
  by rewrite firstn_all.
Qed.

Lemma replaceAll_cons c r d s :
  replaceAll c r (d :: s) =
  (if code_unit_eqb d c then r else [d]) ++ replaceAll c r s.
Proof. done. Qed.

Lemma replaceAll_absent c r s : c ∉ s → replaceAll c r s = s.
Proof.
  induction s as [|d s IH]; intros Hc; [done|].
  apply not_elem_of_cons in Hc as [Hne Hc].
  rewrite replaceAll_cons, code_unit_eqb_ne by done.
  by rewrite IH.
Qed.

(** Replacing every newline by the empty string removes the newlines. *)
Lemma replaceAll_strip s :
  replaceAll newline [] s = Spec.stripNewlines s.
Proof.
  unfold Spec.stripNewlines.
  induction s as [|d s IH]; [done|].
  rewrite replaceAll_cons, IH, filter_cons.
  destruct (decide (d = newline)) as [->|Hne].
  - rewrite code_unit_eqb_refl. by rewrite decide_False by (by intros []).
  - rewrite code_unit_eqb_ne by done. by rewrite decide_True.
Qed.

(** [fromFirst] cuts the string at the first occurrence. *)
Lemma fromFirst_Some c s t :
  Spec.fromFirst c s = Some t →
  ∃ pre t', s = pre ++ c :: t' ∧ t = c :: t' ∧ c ∉ pre.
Proof.
  revert t. induction s as [|d s IH]; intros t; cbn [Spec.fromFirst]; [done|].
  destruct (code_unit_eqb d c) eqn:Hd.
  - apply code_unit_eqb_eq in Hd as ->. intros [= <-].
    exists [], s. split_and!; [done..|]. apply not_elem_of_nil.
  - intros (pre & t' & -> & -> & Hpre)%IH.
    exists (d :: pre), t'. split_and!; [done..|].
    apply not_elem_of_cons. split; [|done].
    intros ->. by rewrite code_unit_eqb_refl in Hd.
Qed.

Lemma fromFirst_None c s : Spec.fromFirst c s = None ↔ c ∉ s.
Proof.
  induction s as [|d s IH]; cbn [Spec.fromFirst].
  - split; [intros _; apply not_elem_of_nil | done].
  - rewrite not_elem_of_cons. destruct (code_unit_eqb d c) eqn:Hd.
    + apply code_unit_eqb_eq in Hd as ->. split; [done|]. by intros [[] _].
    + rewrite IH. split; [|by intros [_ ?]].
      intros ?. split; [|done]. intros ->.
      by rewrite code_unit_eqb_refl in Hd.
Qed.

(** [substring] at the [indexOf] of a character that occurs is the
    specification's "substring starting at the first occurrence". *)
Lemma substring_indexOf_fromFirst c s t :
  Spec.fromFirst c s = Some t → substring s (indexOf s [c]) = t.
Proof.
  intros (pre & t' & -> & -> & Hpre)%fromFirst_Some.
  rewrite indexOf_first by done. apply substring_split.
Qed.

(** When the character does not occur, [indexOf] is [-1] and [substring]
    keeps the whole string. *)
Lemma substring_indexOf_absent c s :
  c ∉ s → substring s (indexOf s [c]) = s.
Proof. intros Hc. rewrite indexOf_absent by done. by apply substring_nonpos. Qed.

(** The derivation of the specification is defined exactly on the texts
    that have an arrow and a newline after it. *)
Lemma derivedMessage_Some code pre mid rest :
  arrowChar ∉ pre → newline ∉ mid →
  Spec.derivedMessage code (pre ++ arrowChar :: mid ++ newline :: rest)
  = Some (Spec.bracketed code ++ trim (Spec.stripNewlines rest)).
Proof.
  intros Hpre Hmid. unfold Spec.derivedMessage, Spec.afterFirst.
  assert (∀ c p t, c ∉ p → Spec.fromFirst c (p ++ c :: t) = Some (c :: t))
    as Hcut.
  { intros c p t. induction p as [|d p IH]; intros Hp; cbn [app Spec.fromFirst].
    - by rewrite code_unit_eqb_refl.
    - apply not_elem_of_cons in Hp as [Hne Hp].
      rewrite code_unit_eqb_ne by done. by apply IH. }
  rewrite Hcut by done. cbn [mbind option_bind].
  assert (newline ∉ arrowChar :: mid) as Hmid'.
  { apply not_elem_of_cons. split; [done|done]. }
  change (arrowChar :: mid ++ newline :: rest)
    with ((arrowChar :: mid) ++ newline :: rest).
  by rewrite (Hcut newline (arrowChar :: mid) rest Hmid').
Qed.

Lemma derivedMessage_None_arrow code text :
  arrowChar ∉ text → Spec.derivedMessage code text = None.
Proof.
  intros Habsent%fromFirst_None. unfold Spec.derivedMessage.
  by rewrite Habsent.
Qed.

End StringFacts.

(** ** Facts about objects used as dictionaries *)

Section ObjectFacts.

Context {V : Type}.
Implicit Types (target source obj : gmap jsstring V) (k : jsstring).

(** The own properties of [source] that [Object.assign] can write to a
    plain object: all but [__proto__]. *)
Lemma Object_set_insert target k v :
  k ≠ js "__proto__" → Object_set target k v = <[k := v]> target.
Proof.
  intros Hk. unfold Object_set.
  destruct (target !! k); [done|]. by rewrite bool_decide_eq_false_2.
Qed.

Lemma Object_set_proto target v :
  target !! js "__proto__" = None →
  Object_set target (js "__proto__") v = target.
Proof. intros Hnone. unfold Object_set. by rewrite Hnone. Qed.

(** On a target without an own [__proto__], [Object.assign] is the union in
    which the source wins, the source's [__proto__] left out. *)
Lemma Object_assign_union target source :
  target !! js "__proto__" = None →
  Object_assign target source = delete (js "__proto__") source ∪ target.
Proof.
  intros Htarget. unfold Object_assign.
  apply (map_fold_weak_ind
           (λ r m, r = delete (js "__proto__") m ∪ target)).
  - by rewrite delete_empty, (left_id_L ∅ (∪)).
  - intros i x m r Hi ->.
    destruct (decide (i = js "__proto__")) as [->|Hne].
    + rewrite Object_set_proto.
      * by rewrite delete_insert_eq.
      * rewrite lookup_union, lookup_delete_eq, Htarget. done.
    + rewrite Object_set_insert by done.
      by rewrite delete_insert_ne, insert_union_l.
Qed.

Lemma lookup_Object_assign target source k :
  target !! js "__proto__" = None →
  Object_assign target source !! k =
  match delete (js "__proto__") source !! k with
  | Some v => Some v
  | None => target !! k
  end.
Proof.
  intros Htarget. rewrite Object_assign_union, lookup_union by done.
  destruct (delete (js "__proto__") source !! k), (target !! k); done.
Qed.

Lemma elem_of_Object_keys obj k : k ∈ Object_keys obj ↔ is_Some (obj !! k).
Proof.
  unfold Object_keys. rewrite list_elem_of_fmap. split.
  - intros [[k' v] [-> Hin]]. apply elem_of_map_to_list in Hin. by exists v.
  - intros [v Hv]. exists (k, v). split; [done|]. by apply elem_of_map_to_list.
Qed.

Lemma includes_Object_keys_Some obj k v :
  obj !! k = Some v → includes (Object_keys obj) k = true.
Proof.
  intros Hv. unfold includes. apply bool_decide_eq_true.
  apply elem_of_Object_keys. by exists v.
Qed.

Lemma includes_Object_keys_None obj k :
  obj !! k = None → includes (Object_keys obj) k = false.
Proof.
  intros Hv. unfold includes. apply bool_decide_eq_false.
  rewrite elem_of_Object_keys, Hv. by intros [? ?].
Qed.

End ObjectFacts.

(** ** The branches of [catch] *)

Section Branches.

Context {HttpServer : Type}.
Implicit Types (this : PrismaClientExceptionFilter HttpServer)
  (exception : PrismaClientKnownRequestError) (host : ArgumentsHost)
  (appRef : option HttpServer).

Lemma catch_http_unmapped this exception host :
  getType host = js "http" →
  errorCodesStatusMapping this !! code exception = None →
  catch this exception host = (FromBase, [SuperCatch (Same exception) host]).
Proof.
  intros Hhost Hst. unfold catch, catchClientKnownRequestError.
  rewrite bool_decide_eq_true_2 by done.
  by rewrite includes_Object_keys_None.
Qed.

Lemma catch_http_mapped this exception host statusCode :
  getType host = js "http" →
  errorCodesStatusMapping this !! code exception = Some statusCode →
  catch this exception host =
  (FromBase,
   [NewHttpException (mappedException this exception statusCode);
    SuperCatch (Built (mappedException this exception statusCode)) host]).
Proof.
  intros Hhost Hst. unfold catch, catchClientKnownRequestError.
  rewrite bool_decide_eq_true_2 by done.
  rewrite (includes_Object_keys_Some _ _ _ Hst), Hst. done.
Qed.

Lemma graphql_not_http host :
  getType host = js "graphql" → getType host ≠ js "http".
Proof. intros ->. discriminate. Qed.

Lemma catch_graphql_unmapped this exception host :
  getType host = js "graphql" →
  errorCodesStatusMapping this !! code exception = None →
  catch this exception host = (Returned (Same exception), []).
Proof.
  intros Hhost Hst. unfold catch, catchClientKnownRequestError.
  rewrite bool_decide_eq_false_2 by by apply graphql_not_http.
  rewrite bool_decide_eq_true_2 by done.
  by rewrite includes_Object_keys_None.
Qed.

Lemma catch_graphql_mapped this exception host statusCode :
  getType host = js "graphql" →
  errorCodesStatusMapping this !! code exception = Some statusCode →
  catch this exception host =
  (Returned (Built (mappedException this exception statusCode)),
   [NewHttpException (mappedException this exception statusCode)]).
Proof.
  intros Hhost Hst. unfold catch, catchClientKnownRequestError.
  rewrite bool_decide_eq_false_2 by by apply graphql_not_http.
  rewrite bool_decide_eq_true_2 by done.
  rewrite (includes_Object_keys_Some _ _ _ Hst), Hst. done.
Qed.

Lemma catch_other this exception host :
  getType host ≠ js "http" →
  getType host ≠ js "graphql" →
  catch this exception host = (Undefined, []).
Proof.
  intros Hhttp Hgql. unfold catch, catchClientKnownRequestError.
  by rewrite !bool_decide_eq_false_2.
Qed.

(** The mappings of a constructed filter: the own properties of the
    overrides, [__proto__] left out, over the defaults. *)
Lemma defaultStatusMapping_proto :
  defaultStatusMapping !! js "__proto__" = None.
Proof. by vm_compute. Qed.

Lemma constructor_status appRef statusOverride messageOverride :
  errorCodesStatusMapping (constructor appRef statusOverride messageOverride)
  = delete (js "__proto__") (default ∅ statusOverride) ∪ defaultStatusMapping.
Proof.
  unfold constructor.
  destruct statusOverride as [o|], messageOverride as [o'|];
    cbn [errorCodesStatusMapping applicationRef errorCodesMessageMapping
         default from_option id];
    rewrite ?(Object_assign_union _ _ defaultStatusMapping_proto);
    by rewrite ?delete_empty, ?(left_id_L ∅ (∪)).
Qed.

Lemma constructor_message appRef statusOverride messageOverride :
  errorCodesMessageMapping (constructor appRef statusOverride messageOverride)
  = delete (js "__proto__") (default ∅ messageOverride).
Proof.
  unfold constructor, defaultMessageMapping.
  destruct statusOverride as [o|], messageOverride as [o'|];
    cbn [errorCodesStatusMapping applicationRef errorCodesMessageMapping
         default from_option id];
    rewrite ?(Object_assign_union ∅ _ (lookup_empty _));
    by rewrite ?delete_empty, ?(right_id_L ∅ (∪)).
Qed.

Lemma constructor_applicationRef appRef statusOverride messageOverride :
  applicationRef (constructor appRef statusOverride messageOverride) = appRef.
Proof. by destruct statusOverride, messageOverride. Qed.

End Branches.

(** ** The filter: mapped codes over http *)

(** C1: an error with one of the three default codes, handled over http by
    a filter whose status override leaves that code alone, is handed to the
    base filter as an [HttpException] whose status and whose body
    [statusCode] are the default value: 400 for P2000, 409 for P2002, 404
    for P2025. *)
Theorem default_codes_http_status
    {HttpServer : Type} (appRef : option HttpServer)
    (statusOverride : option ErrorCodesStatusMapping)
    (messageOverride : option ErrorCodesMessageMapping)
    (exception : PrismaClientKnownRequestError) (host : ArgumentsHost)
    (statusCode : Z)
    (Hdefault : (code exception, statusCode) ∈
                [(js "P2000", 400); (js "P2002", 409); (js "P2025", 404)])
    (Hkept : statusOverride ≫= (.!! code exception) = None)
    (Hhost : getType host = js "http") :
  ∃ h : HttpException,
    catch (constructor appRef statusOverride messageOverride) exception host
    = (FromBase, [NewHttpException h; SuperCatch (Built h) host])
    ∧ getStatus h = Some statusCode
    ∧ body_statusCode (getResponse h) = Some statusCode.
Proof.
  set (this := constructor appRef statusOverride messageOverride).
  assert (errorCodesStatusMapping this !! code exception = Some statusCode)
    as Hst.
  { unfold this. rewrite constructor_status, lookup_union_r.
    - repeat (apply elem_of_cons in Hdefault as [[= -> ->]|Hdefault];
              [by vm_compute|]).
      by apply elem_of_nil in Hdefault.
    - apply lookup_delete_None. right.
      destruct statusOverride as [o|]; [exact Hkept | apply lookup_empty]. }
  exists (mappedException this exception statusCode).
  split; [|done]. by apply catch_http_mapped.
Qed.

Lemma default_codes_http_status_witness :
  ∃ h : HttpException,
    catch (constructor (HttpServer := unit) None
             (Some {[js "P2999" := 418]}) None)
          (mkPrismaError (js "P2002") example_text) (mkHost (js "http"))
    = (FromBase, [NewHttpException h; SuperCatch (Built h) (mkHost (js "http"))])
    ∧ getStatus h = Some 409
    ∧ body_statusCode (getResponse h) = Some 409.
Proof.
  apply default_codes_http_status.
  - apply list_elem_of_further, list_elem_of_here.
  - vm_compute. reflexivity.
  - reflexivity.
Defined.

(** ** The default message *)

(** C2: whenever the derivation the specification describes is defined (the
    text has an arrow and a newline after it), [defaultExceptionMessage]
    returns its result: the part after the first newline of the substring
    that starts at the first arrow, without newlines, trimmed, behind the
    bracketed code.  For the text ["... → \n  Some detail here\n"] and the
    code P2002 that is ["[P2002]: Some detail here"]. *)
Theorem default_message_derivation :
  (∀ (exception : PrismaClientKnownRequestError) (derived : jsstring),
      Spec.derivedMessage (code exception) (message exception) = Some derived →
      defaultExceptionMessage exception = derived)
  ∧ Spec.derivedMessage (js "P2002") example_text
    = Some (js "[P2002]: Some detail here")
  ∧ defaultExceptionMessage (mkPrismaError (js "P2002") example_text)
    = js "[P2002]: Some detail here".
Proof.
  split_and!; [|by vm_compute..].
  intros [c text] derived. cbn [code message]. unfold Spec.derivedMessage.
  destruct (Spec.fromFirst arrowChar text) as [short|] eqn:Hshort; [|done].
  cbn [mbind option_bind]. unfold Spec.afterFirst.
  destruct (Spec.fromFirst newline short) as [rest|] eqn:Hrest; [|done].
  intros Hderived. cbn in Hderived. injection Hderived as <-.
  unfold defaultExceptionMessage, arrow, nl. cbn [code message].
  rewrite (substring_indexOf_fromFirst _ _ _ Hshort).
  rewrite (substring_indexOf_fromFirst _ _ _ Hrest).
  apply fromFirst_Some in Hrest as (pre & t' & _ & -> & _).
  rewrite replaceAll_cons, code_unit_eqb_refl, replaceAll_strip.
  done.
Qed.

Lemma default_message_derivation_witness :
  defaultExceptionMessage
    (mkPrismaError (js "P2025")
       (js "Invalid `prisma.user.update()` invocation:" ++ nl ++ arrow
        ++ js " 12 await update(" ++ nl ++ js " Record to update" ++ nl
        ++ js " not found. "))
  = js "[P2025]: Record to update not found.".
Proof.
  apply (proj1 default_message_derivation).
  vm_compute. reflexivity.
Defined.

(** C10: when the text has neither an arrow nor a newline, both [indexOf]
    calls give [-1], [substring] at [-1] starts at position 0 and keeps the
    whole text, and the message is the bracketed code followed by the
    trimmed text. *)
Theorem default_message_without_arrow_and_newline
    (exception : PrismaClientKnownRequestError)
    (Harrow : arrowChar ∉ message exception)
    (Hnewline : newline ∉ message exception) :
  indexOf (message exception) arrow = -1
  ∧ indexOf (message exception) nl = -1
  ∧ substring (message exception) (-1) = substring (message exception) 0
  ∧ substring (message exception) (-1) = message exception
  ∧ defaultExceptionMessage exception
    = js "[" ++ code exception ++ js "]: " ++ trim (message exception).
Proof.
  unfold arrow, nl. split_and!.
  - by apply indexOf_absent.
  - by apply indexOf_absent.
  - by rewrite !substring_nonpos by lia.
  - by apply substring_nonpos.
  - unfold defaultExceptionMessage, arrow, nl.
    rewrite (substring_indexOf_absent _ _ Harrow).
    rewrite (substring_indexOf_absent _ _ Hnewline).
    rewrite replaceAll_absent by done.
    by rewrite <- !(assoc_L (++)).
Qed.

Lemma default_message_without_arrow_and_newline_witness :
  defaultExceptionMessage
    (mkPrismaError (js "P2000") (js "  value too long for column  "))
  = js "[P2000]: value too long for column".
Proof.
  refine (proj2 (proj2 (proj2 (proj2
    (default_message_without_arrow_and_newline
       (mkPrismaError (js "P2000") (js "  value too long for column  "))
       _ _))))).
  - apply (bool_decide_unpack _). vm_compute. exact I.
  - apply (bool_decide_unpack _). vm_compute. exact I.
Defined.

(** ** The constructor *)

(** C3: the mappings of a constructed filter are the defaults merged with
    the own entries of the overrides, [__proto__] apart: such an entry wins
    over the default, a key the override does not mention keeps its default
    (the message mapping has no defaults), and an own [__proto__] of an
    override is dropped.  With the status override [{P2999: 418}] the
    mapping has P2000 → 400, P2002 → 409, P2025 → 404 and P2999 → 418, and
    nothing else. *)
Theorem constructor_merge
    {HttpServer : Type} (appRef : option HttpServer)
    (statusOverride : option ErrorCodesStatusMapping)
    (messageOverride : option ErrorCodesMessageMapping) :
  let this := constructor appRef statusOverride messageOverride in
  let that := constructor appRef (Some {[js "P2999" := 418]}) messageOverride in
  (∀ k, errorCodesStatusMapping this !! k =
        match statusOverride ≫= (λ o, assignable o !! k) with
        | Some v => Some v
        | None => defaultStatusMapping !! k
        end)
  ∧ (∀ k, errorCodesMessageMapping this !! k =
          match messageOverride ≫= (λ o, assignable o !! k) with
          | Some m => Some m
          | None => defaultMessageMapping !! k
          end)
  ∧ (∀ (o : ErrorCodesStatusMapping) (o' : ErrorCodesMessageMapping) k,
        assignable o !! k
        = (if bool_decide (k = js "__proto__") then None else o !! k)
        ∧ assignable o' !! k
          = (if bool_decide (k = js "__proto__") then None else o' !! k))
  ∧ errorCodesStatusMapping this !! js "__proto__" = None
  ∧ errorCodesMessageMapping this !! js "__proto__" = None
  ∧ defaultStatusMapping
    = list_to_map [(js "P2000", 400); (js "P2002", 409); (js "P2025", 404)]
  ∧ defaultMessageMapping = ∅
  ∧ errorCodesStatusMapping that
    = list_to_map [(js "P2000", 400); (js "P2002", 409); (js "P2025", 404);
                   (js "P2999", 418)].
Proof.
  intros this that.
  assert (∀ k, errorCodesStatusMapping this !! k =
               match statusOverride ≫= (λ o, assignable o !! k) with
               | Some v => Some v
               | None => defaultStatusMapping !! k
               end) as Hstatus.
  { intros k. unfold this, assignable.
    rewrite constructor_status, lookup_union.
    destruct statusOverride as [o|]; cbn [mbind option_bind default from_option id].
    - destruct (delete (js "__proto__") o !! k),
               (defaultStatusMapping !! k); done.
    - rewrite delete_empty, lookup_empty.
      by destruct (defaultStatusMapping !! k). }
  assert (∀ k, errorCodesMessageMapping this !! k =
               match messageOverride ≫= (λ o, assignable o !! k) with
               | Some m => Some m
               | None => defaultMessageMapping !! k
               end) as Hmessage.
  { intros k. unfold this, assignable. rewrite constructor_message.
    unfold defaultMessageMapping. rewrite lookup_empty.
    destruct messageOverride as [o|]; cbn [mbind option_bind default from_option id].
    - by destruct (delete (js "__proto__") o !! k).
    - by rewrite delete_empty, lookup_empty. }
  split_and!; [done|done| | | |done|done|].
  - intros o o' k. unfold assignable. rewrite !lookup_delete.
    split; case_decide; subst.
    + by rewrite bool_decide_eq_true_2.
    + by rewrite bool_decide_eq_false_2 by done.
    + by rewrite bool_decide_eq_true_2.
    + by rewrite bool_decide_eq_false_2 by done.
  - rewrite Hstatus. unfold assignable.
    destruct statusOverride as [o|]; cbn [mbind option_bind].
    + rewrite lookup_delete_eq. apply defaultStatusMapping_proto.
    + apply defaultStatusMapping_proto.
  - rewrite Hmessage. unfold assignable, defaultMessageMapping.
    destruct messageOverride as [o|]; cbn [mbind option_bind].
    + rewrite lookup_delete_eq. apply lookup_empty.
    + apply lookup_empty.
  - unfold that. rewrite constructor_status. cbn [default from_option id].
    by vm_compute.
Qed.

(** With a status override whose only own entry is [__proto__ → 418], the
    override has an entry the constructed mapping lacks: the merge is not
    the union of the override and the defaults at that key. *)
Lemma proto_override_entry_is_dropped :
  let statusOverride : ErrorCodesStatusMapping := {[js "__proto__" := 418]} in
  let this := constructor (HttpServer := unit) None (Some statusOverride) None in
  statusOverride !! js "__proto__" = Some 418
  ∧ errorCodesStatusMapping this !! js "__proto__" = None
  ∧ ¬ (∀ k, errorCodesStatusMapping this !! k =
            match statusOverride !! k with
            | Some v => Some v
            | None => defaultStatusMapping !! k
            end).
Proof.
  intros statusOverride this.
  assert (statusOverride !! js "__proto__" = Some 418)
    as Hentry by (by vm_compute).
  assert (errorCodesStatusMapping this !! js "__proto__" = None)
    as Hdropped by (by vm_compute).
  split_and!; [done..|].
  intros Hclaim. specialize (Hclaim (js "__proto__")).
  rewrite Hentry, Hdropped in Hclaim. discriminate Hclaim.
Qed.

(** ** The message of a mapped code *)

(** C4: for a code of the status mapping, in an http or a graphql context,
    one body is built; its message is the entry of the message mapping for
    the code when there is one and it is not the empty string, and the
    derived default message when the entry is the empty string, or when
    there is no entry and the code is not the name of a member of
    [Object.prototype].  A filter constructed with the message override
    [{P2000: "custom"}] answers ["custom"] for P2000; one whose message
    override has no entry for P2000 answers the derived default message. *)
Theorem message_precedence :
  (∀ {HttpServer : Type} (this : PrismaClientExceptionFilter HttpServer)
     (exception : PrismaClientKnownRequestError) (host : ArgumentsHost),
      is_Some (errorCodesStatusMapping this !! code exception) →
      getType host = js "http" ∨ getType host = js "graphql" →
      (∀ m, errorCodesMessageMapping this !! code exception = Some m →
            m ≠ [] →
            responseMessages (catch this exception host) = [Text m])
      ∧ (errorCodesMessageMapping this !! code exception = Some []
         ∨ (errorCodesMessageMapping this !! code exception = None
            ∧ code exception ∉ Object_prototype_names) →
         responseMessages (catch this exception host)
         = [Text (defaultExceptionMessage exception)]))
  ∧ (∀ {HttpServer : Type} (appRef : option HttpServer)
       (text : jsstring) (host : ArgumentsHost),
        getType host = js "http" ∨ getType host = js "graphql" →
        responseMessages
          (catch (constructor appRef (Some {[js "P2000" := 400]})
                              (Some {[js "P2000" := js "custom"]}))
                 (mkPrismaError (js "P2000") text) host)
        = [Text (js "custom")])
  ∧ (∀ {HttpServer : Type} (appRef : option HttpServer)
       (messageOverride : option ErrorCodesMessageMapping)
       (text : jsstring) (host : ArgumentsHost),
        messageOverride ≫= (.!! js "P2000") = None →
        getType host = js "http" ∨ getType host = js "graphql" →
        responseMessages
          (catch (constructor appRef (Some {[js "P2000" := 400]})
                              messageOverride)
                 (mkPrismaError (js "P2000") text) host)
        = [Text (defaultExceptionMessage (mkPrismaError (js "P2000") text))]).
Proof.
  assert (∀ {HttpServer : Type} (this : PrismaClientExceptionFilter HttpServer)
            exception host,
            is_Some (errorCodesStatusMapping this !! code exception) →
            getType host = js "http" ∨ getType host = js "graphql" →
            responseMessages (catch this exception host)
            = [responseMessage this exception]) as Hrun.
  { intros S this exception host [v Hv] [Hhost|Hhost].
    - by rewrite (catch_http_mapped _ _ _ _ Hhost Hv).
    - by rewrite (catch_graphql_mapped _ _ _ _ Hhost Hv). }
  assert (∀ {HttpServer : Type} (appRef : option HttpServer) messageOverride,
            is_Some (errorCodesStatusMapping
                       (constructor appRef (Some {[js "P2000" := 400]})
                                    messageOverride) !! js "P2000"))
    as Hmapped.
  { intros S appRef messageOverride. rewrite constructor_status.
    cbn [default from_option id]. exists 400. by vm_compute. }
  split_and!.
  - intros S this exception host Hst Hhost.
    rewrite (Hrun _ _ _ _ Hst Hhost). unfold responseMessage, get_message.
    split.
    + intros m -> Hm. by destruct m.
    + intros [-> | [-> Hname]]; [done|].
      unfold inherited. by rewrite bool_decide_eq_false_2.
  - intros S appRef text host Hhost.
    rewrite Hrun; [|apply Hmapped|done].
    unfold responseMessage, get_message. cbn [code].
    rewrite constructor_message. cbn [default from_option id].
    by vm_compute.
  - intros S appRef messageOverride text host Hnone Hhost.
    rewrite Hrun; [|apply Hmapped|done].
    unfold responseMessage, get_message. cbn [code].
    rewrite constructor_message.
    assert (delete (js "__proto__") (default ∅ messageOverride) !! js "P2000"
            = None) as ->.
    { apply lookup_delete_None. right.
      destruct messageOverride as [o|]; [exact Hnone | apply lookup_empty]. }
    done.
Qed.

Lemma message_precedence_witness :
  responseMessages
    (catch (constructor (HttpServer := unit) None None
              (Some {[js "P2002" := js "already taken"]}))
           (mkPrismaError (js "P2002") example_text) (mkHost (js "graphql")))
  = [Text (js "already taken")].
Proof.
  apply (proj1 message_precedence).
  - exists 409. vm_compute. reflexivity.
  - right. reflexivity.
  - vm_compute. reflexivity.
  - discriminate.
Defined.

(** With a message override that maps P2000 to the empty string, the entry
    for P2000 is present and the message of the response is the derived
    default message, not the entry. *)
Lemma empty_message_entry_falls_back :
  let this := constructor (HttpServer := unit) None None
                (Some {[js "P2000" := []]}) in
  let exception := mkPrismaError (js "P2000") example_text in
  let host := mkHost (js "http") in
  is_Some (errorCodesStatusMapping this !! code exception)
  ∧ errorCodesMessageMapping this !! code exception = Some []
  ∧ responseMessages (catch this exception host)
    = [Text (js "[P2000]: Some detail here")]
  ∧ ¬ (∀ m, errorCodesMessageMapping this !! code exception = Some m →
            responseMessages (catch this exception host) = [Text m]).
Proof.
  intros this exception host.
  assert (errorCodesMessageMapping this !! code exception = Some [])
    as Hentry by (by vm_compute).
  assert (responseMessages (catch this exception host)
          = [Text (js "[P2000]: Some detail here")]) as Hrun by (by vm_compute).
  split_and!; [|done..|].
  - exists 400. by vm_compute.
  - intros Hclaim. specialize (Hclaim [] Hentry).
    rewrite Hrun in Hclaim. discriminate Hclaim.
Qed.

(** ** Codes outside the status mapping *)

(** C5: over http, an error whose code the status mapping lacks goes to the
    inherited [catch] as it is; that call is all the filter does, and no
    [HttpException] is built. *)
Theorem unmapped_http_delegates
    {HttpServer : Type} (this : PrismaClientExceptionFilter HttpServer)
    (exception : PrismaClientKnownRequestError) (host : ArgumentsHost)
    (Habsent : errorCodesStatusMapping this !! code exception = None)
    (Hhost : getType host = js "http") :
  catch this exception host = (FromBase, [SuperCatch (Same exception) host])
  ∧ delegated (Trace.trace (catch this exception host)) = [Same exception]
  ∧ constructed (Trace.trace (catch this exception host)) = [].
Proof. by rewrite (catch_http_unmapped _ _ _ Hhost Habsent). Qed.

Lemma unmapped_http_delegates_witness :
  let this := constructor (HttpServer := unit) None None None in
  let exception := mkPrismaError (js "P2003") example_text in
  let host := mkHost (js "http") in
  catch this exception host = (FromBase, [SuperCatch (Same exception) host])
  ∧ delegated (Trace.trace (catch this exception host)) = [Same exception]
  ∧ constructed (Trace.trace (catch this exception host)) = [].
Proof.
  apply unmapped_http_delegates.
  - vm_compute. reflexivity.
  - reflexivity.
Defined.

(** C6: over graphql, an error whose code the status mapping lacks is
    returned as it is: the result is the object received, nothing is built
    and the inherited [catch] is not called. *)
Theorem unmapped_graphql_returns_exception
    {HttpServer : Type} (this : PrismaClientExceptionFilter HttpServer)
    (exception : PrismaClientKnownRequestError) (host : ArgumentsHost)
    (Habsent : errorCodesStatusMapping this !! code exception = None)
    (Hhost : getType host = js "graphql") :
  Trace.result (catch this exception host) = Returned (Same exception)
  ∧ Trace.trace (catch this exception host) = [].
Proof. by rewrite (catch_graphql_unmapped _ _ _ Hhost Habsent). Qed.

Lemma unmapped_graphql_returns_exception_witness :
  let this := constructor (HttpServer := unit) None None None in
  let exception := mkPrismaError (js "P2003") example_text in
  let host := mkHost (js "graphql") in
  Trace.result (catch this exception host) = Returned (Same exception)
  ∧ Trace.trace (catch this exception host) = [].
Proof.
  apply unmapped_graphql_returns_exception.
  - vm_compute. reflexivity.
  - reflexivity.
Defined.

(** ** Mapped codes over graphql *)

(** C7: over graphql, for a code the status mapping has, the filter builds
    one [HttpException] and returns it: the mapped status code is its status
    and the [statusCode] of its body, the message is the other field of the
    body, and the inherited [catch] is not called. *)
Theorem mapped_graphql_returns_http_exception
    {HttpServer : Type} (this : PrismaClientExceptionFilter HttpServer)
    (exception : PrismaClientKnownRequestError) (host : ArgumentsHost)
    (statusCode : Z)
    (Hmapped : errorCodesStatusMapping this !! code exception = Some statusCode)
    (Hhost : getType host = js "graphql") :
  ∃ h : HttpException,
    catch this exception host = (Returned (Built h), [NewHttpException h])
    ∧ getStatus h = Some statusCode
    ∧ getResponse h =
      mkBody (Some statusCode)
             (or_else (get_message (errorCodesMessageMapping this)
                                   (code exception))
                      (Text (defaultExceptionMessage exception)))
    ∧ delegated (Trace.trace (catch this exception host)) = [].
Proof.
  exists (mappedException this exception statusCode).
  by rewrite (catch_graphql_mapped _ _ _ _ Hhost Hmapped).
Qed.

Lemma mapped_graphql_returns_http_exception_witness :
  let this := constructor (HttpServer := unit) None None None in
  let exception := mkPrismaError (js "P2025") example_text in
  let host := mkHost (js "graphql") in
  ∃ h : HttpException,
    catch this exception host = (Returned (Built h), [NewHttpException h])
    ∧ getStatus h = Some 404
    ∧ getResponse h =
      mkBody (Some 404)
             (or_else (get_message (errorCodesMessageMapping this)
                                   (code exception))
                      (Text (defaultExceptionMessage exception)))
    ∧ delegated (Trace.trace (catch this exception host)) = [].
Proof.
  apply mapped_graphql_returns_http_exception.
  - vm_compute. reflexivity.
  - reflexivity.
Defined.

(** ** Other request contexts *)

(** C9: in a context that is neither http nor graphql the filter does
    nothing: no [HttpException] is built, the inherited [catch] is not
    called, and the result is [undefined]. *)
Theorem other_context_returns_undefined
    {HttpServer : Type} (this : PrismaClientExceptionFilter HttpServer)
    (exception : PrismaClientKnownRequestError) (host : ArgumentsHost)
    (Hhttp : getType host ≠ js "http")
    (Hgraphql : getType host ≠ js "graphql") :
  Trace.result (catch this exception host) = Undefined
  ∧ Trace.trace (catch this exception host) = [].
Proof. by rewrite (catch_other _ _ _ Hhttp Hgraphql). Qed.

Lemma other_context_returns_undefined_witness :
  let this := constructor (HttpServer := unit) None None None in
  let exception := mkPrismaError (js "P2002") example_text in
  let host := mkHost (js "rpc") in
  Trace.result (catch this exception host) = Undefined
  ∧ Trace.trace (catch this exception host) = [].
Proof.
  apply other_context_returns_undefined.
  - vm_compute. discriminate.
  - vm_compute. discriminate.
Defined.

(** ** The client service *)

(** C8: the [client] field of a service constructed with a handle is that
    handle, whatever the handle is. *)
Theorem client_wrapper_identity {Client : Type} (H : Client) :
  CustomPrisma.client (CustomPrisma.constructor H) = H.
Proof. reflexivity. Qed.

(** ** More about the string operations *)

Section TrimFacts.

Implicit Types (s t pre : jsstring) (c d : N).

Lemma fromFirstOrAll_absent c s : c ∉ s → fromFirstOrAll c s = s.
Proof.
  intros Hc%fromFirst_None. unfold fromFirstOrAll. by rewrite Hc.
Qed.

Lemma fromFirstOrAll_first c pre t :
  c ∉ pre → fromFirstOrAll c (pre ++ c :: t) = c :: t.
Proof.
  intros Hpre. unfold fromFirstOrAll.
  assert (Spec.fromFirst c (pre ++ c :: t) = Some (c :: t)) as ->; [|done].
  induction pre as [|d pre IH]; cbn [app Spec.fromFirst].
  - by rewrite code_unit_eqb_refl.
  - apply not_elem_of_cons in Hpre as [Hne Hpre].
    rewrite code_unit_eqb_ne by done. by apply IH.
Qed.

(** [s.substring(s.indexOf(c))] for every [s]. *)
Lemma substring_indexOf c s :
  substring s (indexOf s [c]) = fromFirstOrAll c s.
Proof.
  unfold fromFirstOrAll.
  destruct (Spec.fromFirst c s) as [t|] eqn:Hcut.
  - by apply substring_indexOf_fromFirst.
  - apply substring_indexOf_absent. by apply fromFirst_None.
Qed.

Lemma fromFirstOrAll_suffix c s : fromFirstOrAll c s `suffix_of` s.
Proof.
  unfold fromFirstOrAll.
  destruct (Spec.fromFirst c s) as [t|] eqn:Hcut; [|done].
  apply fromFirst_Some in Hcut as (pre & t' & -> & -> & _).
  by exists pre.
Qed.

Lemma not_elem_of_stripNewlines s : newline ∉ Spec.stripNewlines s.
Proof.
  unfold Spec.stripNewlines. intros [Hne _]%list_elem_of_filter. done.
Qed.

Lemma stripNewlines_absent s : newline ∉ s → Spec.stripNewlines s = s.
Proof. intros Hs. by rewrite <- replaceAll_strip, replaceAll_absent. Qed.

Lemma trimStart_suffix s : trimStart s `suffix_of` s.
Proof.
  induction s as [|c s IH]; cbn [trimStart]; [done|].
  destruct (isWhiteSpace c); [by apply suffix_cons_r | done].
Qed.

Lemma trimStart_head s c :
  head (trimStart s) = Some c → isWhiteSpace c = false.
Proof.
  induction s as [|d s IH]; cbn [trimStart]; [done|].
  destruct (isWhiteSpace d) eqn:Hd; [done|]. by intros [= <-].
Qed.

Lemma trimStart_last s :
  trimStart s ≠ [] → last (trimStart s) = last s.
Proof.
  intros Hne. destruct (trimStart_suffix s) as [pre Hpre].
  rewrite Hpre at 2. destruct (trimStart s) as [|c t] eqn:Ht; [done|].
  by rewrite last_app_cons.
Qed.

Lemma trimStart_not_whitespace c s :
  isWhiteSpace c = false → trimStart (c :: s) = c :: s.
Proof. intros Hc. cbn [trimStart]. by rewrite Hc. Qed.

Lemma trimStart_snoc s c :
  isWhiteSpace c = false → trimStart (s ++ [c]) = trimStart s ++ [c].
Proof.
  intros Hc. induction s as [|d s IH]; cbn [app trimStart].
  - by rewrite Hc.
  - by destruct (isWhiteSpace d).
Qed.

Lemma trimEnd_cons c s :
  isWhiteSpace c = false → trimEnd (c :: s) = c :: trimEnd s.
Proof.
  intros Hc. unfold trimEnd.
  by rewrite reverse_cons, trimStart_snoc, reverse_snoc.
Qed.

Lemma trimEnd_prefix s : trimEnd s `prefix_of` s.
Proof.
  unfold trimEnd. destruct (trimStart_suffix (reverse s)) as [pre Hpre].
  exists (reverse pre).
  by rewrite <- reverse_app, <- Hpre, reverse_involutive.
Qed.

Lemma elem_of_trim c s : c ∈ trim s → c ∈ s.
Proof.
  intros Hc. unfold trim in Hc.
  destruct (trimEnd_prefix (trimStart s)) as [post Hpost].
  destruct (trimStart_suffix s) as [pre Hpre].
  rewrite Hpre, Hpost. set_solver.
Qed.

Lemma trim_trimmed s : trimmed (trim s).
Proof.
  unfold trimmed, trim, trimEnd. split; intros c.
  - rewrite head_reverse. intros Hlast.
    destruct (decide (trimStart (reverse (trimStart s)) = [])) as [Hnil|Hne].
    { by rewrite Hnil in Hlast. }
    rewrite trimStart_last, last_reverse in Hlast by done.
    by apply trimStart_head in Hlast.
  - rewrite last_reverse. apply trimStart_head.
Qed.

Lemma arrowChar_not_whitespace : isWhiteSpace arrowChar = false.
Proof. reflexivity. Qed.

End TrimFacts.

(** ** The default message on every text *)

Ltac message_shape :=
  unfold defaultExceptionMessage, arrow, nl; cbn [code message];
  rewrite !substring_indexOf, !replaceAll_strip.

(** X1: on every text, the detail of the default message is cut from the
    first arrow on (from the start when there is no arrow), then from the
    first newline of that part on (all of that part when it has no
    newline), and then freed of newlines and trimmed. *)
Theorem default_message_on_every_text
    (exception : PrismaClientKnownRequestError) :
  defaultExceptionMessage exception
  = js "[" ++ code exception ++ js "]: "
    ++ trim (Spec.stripNewlines
               (fromFirstOrAll newline
                  (fromFirstOrAll arrowChar (message exception)))).
Proof. message_shape. by rewrite <- !(assoc_L (++)). Qed.

(** X2: when the text has an arrow and no newline after the first arrow, the
    detail is the text from that arrow on, the arrow included, without its
    trailing white space. *)
Theorem default_message_arrow_without_newline
    (c pre rest : jsstring)
    (Hpre : arrowChar ∉ pre)
    (Hrest : newline ∉ rest) :
  defaultExceptionMessage (mkPrismaError c (pre ++ arrowChar :: rest))
  = js "[" ++ c ++ js "]: " ++ arrowChar :: trimEnd rest.
Proof.
  message_shape. rewrite fromFirstOrAll_first by done.
  assert (newline ∉ arrowChar :: rest) as Hall.
  { apply not_elem_of_cons. by split. }
  rewrite fromFirstOrAll_absent, stripNewlines_absent by done.
  unfold trim.
  rewrite trimStart_not_whitespace, trimEnd_cons
    by apply arrowChar_not_whitespace.
  by rewrite <- !(assoc_L (++)).
Qed.

Lemma default_message_arrow_without_newline_witness :
  defaultExceptionMessage
    (mkPrismaError (js "P2002")
       (js "line one" ++ nl ++ js "at " ++ arrowChar :: js " create() failed  "))
  = js "[P2002]: " ++ arrowChar :: js " create() failed".
Proof.
  refine (default_message_arrow_without_newline
            (js "P2002") (js "line one" ++ nl ++ js "at ")
            (js " create() failed  ") _ _).
  - apply (bool_decide_unpack _). vm_compute. exact I.
  - apply (bool_decide_unpack _). vm_compute. exact I.
Defined.

(** X3: when the text has no arrow but has a newline, the detail is what
    follows the first newline, freed of newlines and trimmed; what stands
    before the first newline is dropped. *)
Theorem default_message_newline_without_arrow
    (c pre rest : jsstring)
    (Harrow : arrowChar ∉ pre ++ newline :: rest)
    (Hpre : newline ∉ pre) :
  defaultExceptionMessage (mkPrismaError c (pre ++ newline :: rest))
  = js "[" ++ c ++ js "]: " ++ trim (Spec.stripNewlines rest).
Proof.
  message_shape.
  rewrite (fromFirstOrAll_absent arrowChar) by done.
  rewrite fromFirstOrAll_first by done.
  rewrite <- (replaceAll_strip (newline :: rest)).
  rewrite replaceAll_cons, code_unit_eqb_refl, replaceAll_strip.
  by rewrite <- !(assoc_L (++)).
Qed.

Lemma default_message_newline_without_arrow_witness :
  defaultExceptionMessage
    (mkPrismaError (js "P2025")
       (js "Invalid invocation:" ++ nl ++ js "  record" ++ nl ++ js " missing "))
  = js "[P2025]: record missing".
Proof.
  refine (default_message_newline_without_arrow
            (js "P2025") (js "Invalid invocation:")
            (js "  record" ++ nl ++ js " missing ") _ _).
  - apply (bool_decide_unpack _). vm_compute. exact I.
  - apply (bool_decide_unpack _). vm_compute. exact I.
Defined.

(** X4: what stands before the first arrow of the text has no influence on
    the default message. *)
Theorem default_message_ignores_text_before_arrow
    (c pre rest : jsstring)
    (Hpre : arrowChar ∉ pre) :
  defaultExceptionMessage (mkPrismaError c (pre ++ arrowChar :: rest))
  = defaultExceptionMessage (mkPrismaError c (arrowChar :: rest)).
Proof.
  message_shape. rewrite fromFirstOrAll_first by done.
  pose proof (fromFirstOrAll_first arrowChar [] rest (not_elem_of_nil _))
    as Hhead.
  cbn [app] in Hhead. by rewrite Hhead.
Qed.

Lemma default_message_ignores_text_before_arrow_witness :
  defaultExceptionMessage
    (mkPrismaError (js "P2000")
       (js "Invalid `create()`" ++ nl ++ arrowChar :: nl ++ js "too long"))
  = defaultExceptionMessage
      (mkPrismaError (js "P2000") (arrowChar :: nl ++ js "too long")).
Proof.
  refine (default_message_ignores_text_before_arrow
            (js "P2000") (js "Invalid `create()`" ++ nl)
            (nl ++ js "too long") _).
  apply (bool_decide_unpack _). vm_compute. exact I.
Defined.

(** X5: the default message is the bracketed code followed by a detail that
    has no newline and neither starts nor ends with white space. *)
Theorem default_message_detail_is_clean
    (exception : PrismaClientKnownRequestError) :
  ∃ detail : jsstring,
    defaultExceptionMessage exception
    = js "[" ++ code exception ++ js "]: " ++ detail
    ∧ (newline ∉ detail)
    ∧ trimmed detail.
Proof.
  eexists. split_and!.
  - message_shape. by rewrite <- !(assoc_L (++)).
  - intros Hin%elem_of_trim. by apply not_elem_of_stripNewlines in Hin.
  - apply trim_trimmed.
Qed.

(** ** More about the runs of [catch] *)

Section Runs.

Context {HttpServer : Type}.
Implicit Types (this : PrismaClientExceptionFilter HttpServer)
  (exception : PrismaClientKnownRequestError) (host : ArgumentsHost)
  (appRef : option HttpServer).

Lemma catch_run_shape this exception host :
  run_shape this exception host (catch this exception host).
Proof.
  destruct (decide (getType host = js "http")) as [Hhttp|Hhttp];
    [|destruct (decide (getType host = js "graphql")) as [Hgql|Hgql]].
  - destruct (errorCodesStatusMapping this !! code exception)
      as [v|] eqn:Hst.
    + rewrite (catch_http_mapped _ _ _ _ Hhttp Hst). by econstructor.
    + rewrite (catch_http_unmapped _ _ _ Hhttp Hst). by econstructor.
  - destruct (errorCodesStatusMapping this !! code exception)
      as [v|] eqn:Hst.
    + rewrite (catch_graphql_mapped _ _ _ _ Hgql Hst). by econstructor.
    + rewrite (catch_graphql_unmapped _ _ _ Hgql Hst). by econstructor.
  - rewrite (catch_other _ _ _ Hhttp Hgql). by econstructor.
Qed.

Lemma constructed_catch this exception host h :
  h ∈ constructed (Trace.trace (catch this exception host)) →
  ∃ v, errorCodesStatusMapping this !! code exception = Some v
       ∧ h = mappedException this exception v.
Proof.
  destruct (catch_run_shape this exception host); cbn; intros Hin;
    try (by apply elem_of_nil in Hin);
    apply list_elem_of_singleton in Hin; eauto.
Qed.

Lemma or_else_nonempty (a : option message_value) (b : message_value) :
  b ≠ Text [] → or_else a b ≠ Text [].
Proof. by destruct a as [[[|c s]|name]|]. Qed.

Lemma defaultExceptionMessage_nonempty exception :
  Text (defaultExceptionMessage exception) ≠ Text [].
Proof. done. Qed.

(** A code that is not a name of [Object.prototype] and has no own entry
    reads as [undefined]. *)
Lemma get_message_None (obj : ErrorCodesMessageMapping) (k : jsstring) :
  obj !! k = None → k ∉ Object_prototype_names → get_message obj k = None.
Proof.
  intros Hobj Hname. unfold get_message, inherited.
  by rewrite Hobj, bool_decide_eq_false_2.
Qed.

Lemma default_code_not_inherited (c : jsstring) :
  c ∈ [js "P2000"; js "P2002"; js "P2025"] → c ∉ Object_prototype_names.
Proof.
  intros Hin.
  repeat (apply elem_of_cons in Hin as [->|Hin];
          [by apply (bool_decide_unpack _); vm_compute|]).
  by apply elem_of_nil in Hin.
Qed.

(** [catch] reads nothing of the filter but its two mappings. *)
Lemma catch_mappings this this' exception host :
  errorCodesStatusMapping this = errorCodesStatusMapping this' →
  errorCodesMessageMapping this = errorCodesMessageMapping this' →
  catch this exception host = catch this' exception host.
Proof.
  intros Hst Hmsg. unfold catch, catchClientKnownRequestError.
  by rewrite Hst, Hmsg.
Qed.

Lemma default_status_lookup (c : jsstring) (v : Z) :
  (c, v) ∈ [(js "P2000", 400); (js "P2002", 409); (js "P2025", 404)] →
  @defaultStatusMapping !! c = Some v.
Proof.
  intros Hin.
  repeat (apply elem_of_cons in Hin as [[= -> ->]|Hin]; [by vm_compute|]).
  by apply elem_of_nil in Hin.
Qed.

Lemma defaultExceptionMessage_derived exception derived :
  Spec.derivedMessage (code exception) (message exception) = Some derived →
  defaultExceptionMessage exception = derived.
Proof.
  unfold Spec.derivedMessage, Spec.afterFirst.
  destruct (Spec.fromFirst arrowChar (message exception))
    as [short|] eqn:Hshort; [|done].
  cbn [mbind option_bind].
  destruct (Spec.fromFirst newline short) as [rest|] eqn:Hrest; [|done].
  intros Hderived. cbn in Hderived. injection Hderived as <-.
  message_shape. unfold fromFirstOrAll. rewrite Hshort. cbn [default from_option id].
  rewrite Hrest. cbn [default from_option id].
  apply fromFirst_Some in Hrest as (pre & t' & _ & -> & _).
  rewrite <- (replaceAll_strip (newline :: t')).
  by rewrite replaceAll_cons, code_unit_eqb_refl, replaceAll_strip.
Qed.

End Runs.

(** ** What every run of [catch] keeps *)

(** X6: no [HttpException] the filter builds has an empty message: an empty
    entry of the message mapping gives way to the default message, which
    starts with the bracket. *)
Theorem built_message_never_empty
    {HttpServer : Type} (this : PrismaClientExceptionFilter HttpServer)
    (exception : PrismaClientKnownRequestError) (host : ArgumentsHost)
    (h : HttpException)
    (Hbuilt : h ∈ constructed (Trace.trace (catch this exception host))) :
  body_message (getResponse h) ≠ Text [].
Proof.
  apply constructed_catch in Hbuilt as (v & _ & ->).
  apply or_else_nonempty, defaultExceptionMessage_nonempty.
Qed.

Lemma built_message_never_empty_witness :
  body_message
    (getResponse
       (mkHttpException
          (mkBody (Some 400) (Text (js "[P2000]: Some detail here")))
          (Some 400)))
  ≠ Text [].
Proof.
  apply (built_message_never_empty
           (constructor (HttpServer := unit) None None
              (Some {[js "P2000" := []]}))
           (mkPrismaError (js "P2000") example_text) (mkHost (js "graphql"))).
  vm_compute. apply list_elem_of_here.
Defined.

(** X7: in every [HttpException] the filter builds, the status and the
    [statusCode] of the body are the same number, the entry of the status
    mapping for the code; neither is [undefined]. *)
Theorem built_status_is_the_mapped_status
    {HttpServer : Type} (this : PrismaClientExceptionFilter HttpServer)
    (exception : PrismaClientKnownRequestError) (host : ArgumentsHost)
    (h : HttpException)
    (Hbuilt : h ∈ constructed (Trace.trace (catch this exception host))) :
  getStatus h = body_statusCode (getResponse h)
  ∧ getStatus h = errorCodesStatusMapping this !! code exception
  ∧ is_Some (getStatus h).
Proof.
  apply constructed_catch in Hbuilt as (v & Hv & ->).
  rewrite Hv. cbn. eauto.
Qed.

Lemma built_status_is_the_mapped_status_witness :
  let h := mkHttpException
             (mkBody (Some 404) (Text (js "[P2025]: Some detail here")))
             (Some 404) in
  getStatus h = body_statusCode (getResponse h)
  ∧ getStatus h
    = errorCodesStatusMapping
        (constructor (HttpServer := unit) None None None) !! js "P2025"
  ∧ is_Some (getStatus h).
Proof.
  apply (built_status_is_the_mapped_status
           (constructor (HttpServer := unit) None None None)
           (mkPrismaError (js "P2025") example_text) (mkHost (js "http"))).
  vm_compute. apply list_elem_of_here.
Defined.

(** X9: the inherited [catch] is called exactly once over http, whatever the
    code, and its result is the result of the filter; in every other
    context it is never called, and in no context is it called after the
    filter returned an exception object. *)
Theorem base_called_only_over_http :
  (∀ {HttpServer : Type} (this : PrismaClientExceptionFilter HttpServer)
     (exception : PrismaClientKnownRequestError) (host : ArgumentsHost),
      getType host = js "http" →
      length (delegated (Trace.trace (catch this exception host))) = 1%nat
      ∧ Trace.result (catch this exception host) = FromBase)
  ∧ (∀ {HttpServer : Type} (this : PrismaClientExceptionFilter HttpServer)
       (exception : PrismaClientKnownRequestError) (host : ArgumentsHost),
        getType host ≠ js "http" →
        delegated (Trace.trace (catch this exception host)) = []
        ∧ Trace.result (catch this exception host) ≠ FromBase).
Proof.
  split; intros S this exception host Hhost;
    destruct (catch_run_shape this exception host); cbn; try done.
  all: by apply graphql_not_http in Hhost.
Qed.

Lemma base_called_only_over_http_witness :
  length (delegated (Trace.trace
            (catch (constructor (HttpServer := unit) None None None)
                   (mkPrismaError (js "P9999") example_text)
                   (mkHost (js "http"))))) = 1%nat
  ∧ Trace.result
      (catch (constructor (HttpServer := unit) None None None)
             (mkPrismaError (js "P9999") example_text)
             (mkHost (js "http"))) = FromBase.
Proof.
  apply (proj1 base_called_only_over_http). reflexivity.
Defined.

(** ** More about constructed filters *)

(** X10: no override removes a default code: whatever the overrides, the
    status mapping of a constructed filter has P2000, P2002 and P2025, so
    for an error with one of these codes the filter never passes on or
    returns the exception it received. *)
Theorem default_codes_stay_mapped
    {HttpServer : Type} (appRef : option HttpServer)
    (statusOverride : option ErrorCodesStatusMapping)
    (messageOverride : option ErrorCodesMessageMapping)
    (exception : PrismaClientKnownRequestError) (host : ArgumentsHost)
    (Hdefault : code exception ∈ [js "P2000"; js "P2002"; js "P2025"]) :
  let this := constructor appRef statusOverride messageOverride in
  includes (Object_keys (errorCodesStatusMapping this)) (code exception) = true
  ∧ (Same exception ∉ delegated (Trace.trace (catch this exception host)))
  ∧ Trace.result (catch this exception host) ≠ Returned (Same exception).
Proof.
  intros this.
  assert (is_Some (errorCodesStatusMapping this !! code exception))
    as [v Hv].
  { unfold this. rewrite constructor_status, lookup_union.
    assert (is_Some (@defaultStatusMapping !! code exception)) as [d ->].
    { repeat (apply elem_of_cons in Hdefault as [->|Hdefault];
              [eexists; by vm_compute|]).
      by apply elem_of_nil in Hdefault. }
    destruct (delete (js "__proto__") (default ∅ statusOverride)
                !! code exception); by eexists. }
  split; [by apply (includes_Object_keys_Some _ _ v)|].
  destruct (catch_run_shape this exception host); cbn; try congruence.
  - split; [|done]. intros Hin%list_elem_of_singleton. discriminate.
  - split; [apply not_elem_of_nil | congruence].
  - split; [apply not_elem_of_nil | done].
Qed.

Lemma default_codes_stay_mapped_witness :
  let exception := mkPrismaError (js "P2002") example_text in
  let host := mkHost (js "graphql") in
  let this := constructor (HttpServer := unit) None
                (Some {[js "P2002" := 422; js "P2999" := 418]})
                (Some {[js "P2000" := js "custom"]}) in
  includes (Object_keys (errorCodesStatusMapping this)) (code exception) = true
  ∧ (Same exception ∉ delegated (Trace.trace (catch this exception host)))
  ∧ Trace.result (catch this exception host) ≠ Returned (Same exception).
Proof.
  apply default_codes_stay_mapped.
  apply list_elem_of_further, list_elem_of_here.
Defined.

(** X11: an entry of the status override under a name other than
    [__proto__] decides the status of the response, for a new code and for
    a default code alike: over http the exception handed to the inherited
    [catch] carries the override's value as its status and as the
    [statusCode] of its body. *)
Theorem status_override_decides_response
    {HttpServer : Type} (appRef : option HttpServer)
    (statusOverride : ErrorCodesStatusMapping)
    (messageOverride : option ErrorCodesMessageMapping)
    (exception : PrismaClientKnownRequestError) (host : ArgumentsHost)
    (statusCode : Z)
    (Hentry : statusOverride !! code exception = Some statusCode)
    (Hname : code exception ≠ js "__proto__")
    (Hhost : getType host = js "http") :
  ∃ h : HttpException,
    catch (constructor appRef (Some statusOverride) messageOverride)
          exception host
    = (FromBase, [NewHttpException h; SuperCatch (Built h) host])
    ∧ getStatus h = Some statusCode
    ∧ body_statusCode (getResponse h) = Some statusCode.
Proof.
  set (this := constructor appRef (Some statusOverride) messageOverride).
  assert (errorCodesStatusMapping this !! code exception = Some statusCode)
    as Hst.
  { unfold this. rewrite constructor_status. cbn [default from_option id].
    apply lookup_union_Some_l. by rewrite lookup_delete_ne. }
  exists (mappedException this exception statusCode).
  by rewrite (catch_http_mapped _ _ _ _ Hhost Hst).
Qed.

Lemma status_override_decides_response_witness :
  let host := mkHost (js "http") in
  ∃ h : HttpException,
    catch (constructor (HttpServer := unit) None
             (Some {[js "P2002" := 422]}) None)
          (mkPrismaError (js "P2002") example_text) host
    = (FromBase, [NewHttpException h; SuperCatch (Built h) host])
    ∧ getStatus h = Some 422
    ∧ body_statusCode (getResponse h) = Some 422.
Proof.
  apply status_override_decides_response.
  - vm_compute. reflexivity.
  - vm_compute. discriminate.
  - reflexivity.
Defined.



(** X13: a status override that only repeats entries of the default mapping,
    the empty object included, and an empty message override give the
    filter that no overrides give. *)
Theorem redundant_overrides_change_nothing
    {HttpServer : Type} (appRef : option HttpServer)
    (statusOverride : ErrorCodesStatusMapping)
    (Hrepeats : statusOverride ⊆ defaultStatusMapping) :
  constructor appRef (Some statusOverride) (Some ∅)
  = constructor appRef None None.
Proof.
  unfold constructor, defaultMessageMapping.
  cbn [applicationRef errorCodesStatusMapping errorCodesMessageMapping].
  rewrite (Object_assign_union _ _ defaultStatusMapping_proto).
  rewrite (Object_assign_union ∅ _ (lookup_empty _)).
  rewrite delete_empty, (left_id_L ∅ (∪)).
  assert (delete (js "__proto__") statusOverride ⊆ defaultStatusMapping)
    as Hwritten by (etrans; [apply delete_subseteq | done]).
  by rewrite (map_subseteq_union _ _ Hwritten).
Qed.

Lemma redundant_overrides_change_nothing_witness :
  constructor (HttpServer := unit) None (Some {[js "P2002" := 409]}) (Some ∅)
  = constructor None None None.
Proof.
  apply redundant_overrides_change_nothing.
  apply map_singleton_subseteq_l. vm_compute. reflexivity.
Defined.

(** ** From the error to the response *)

(** X15: a filter constructed without overrides answers an http error that
    has a default code and a text with an arrow and a newline after it by
    handing to the inherited [catch] the exception whose status and body
    [statusCode] are the default value and whose message is the derived
    message. *)
Theorem default_filter_http_response
    {HttpServer : Type} (appRef : option HttpServer)
    (exception : PrismaClientKnownRequestError) (host : ArgumentsHost)
    (statusCode : Z) (derived : jsstring)
    (Hdefault : (code exception, statusCode) ∈
                [(js "P2000", 400); (js "P2002", 409); (js "P2025", 404)])
    (Htext : Spec.derivedMessage (code exception) (message exception)
             = Some derived)
    (Hhost : getType host = js "http") :
  let h := mkHttpException (mkBody (Some statusCode) (Text derived))
                           (Some statusCode) in
  catch (constructor appRef None None) exception host
  = (FromBase, [NewHttpException h; SuperCatch (Built h) host]).
Proof.
  intros h. set (this := constructor appRef None None).
  assert (errorCodesStatusMapping this !! code exception = Some statusCode)
    as Hst by (by apply default_status_lookup).
  rewrite (catch_http_mapped _ _ _ _ Hhost Hst).
  unfold h, mappedException, responseMessage.
  rewrite get_message_None.
  - cbn [or_else]. by rewrite (defaultExceptionMessage_derived _ _ Htext).
  - unfold this. rewrite constructor_message. cbn [default from_option id].
    by rewrite delete_empty, lookup_empty.
  - apply default_code_not_inherited.
    repeat (apply elem_of_cons in Hdefault as [[= -> ->]|Hdefault];
            [set_solver|]).
    by apply elem_of_nil in Hdefault.
Qed.

Lemma default_filter_http_response_witness :
  let host := mkHost (js "http") in
  let h := mkHttpException
             (mkBody (Some 409) (Text (js "[P2002]: Some detail here")))
             (Some 409) in
  catch (constructor (HttpServer := unit) None None None)
        (mkPrismaError (js "P2002") example_text) host
  = (FromBase, [NewHttpException h; SuperCatch (Built h) host]).
Proof.
  apply (default_filter_http_response (HttpServer := unit) None
           (mkPrismaError (js "P2002") example_text) (mkHost (js "http"))).
  - apply list_elem_of_further, list_elem_of_here.
  - vm_compute. reflexivity.
  - reflexivity.
Defined.

(** ** The two protocols side by side *)



(** ** A code that names a member of [Object.prototype] *)

(** X17: when the code is the name of a member of [Object.prototype], the
    status mapping has it and the message mapping has no own entry for it,
    the read of the message mapping finds the inherited member, and that
    member, not the default message, is the message of the body the filter
    builds. *)
Theorem inherited_member_becomes_the_message
    {HttpServer : Type} (this : PrismaClientExceptionFilter HttpServer)
    (exception : PrismaClientKnownRequestError) (host : ArgumentsHost)
    (Hmapped : is_Some (errorCodesStatusMapping this !! code exception))
    (Hnoentry : errorCodesMessageMapping this !! code exception = None)
    (Hname : code exception ∈ Object_prototype_names)
    (Hhost : getType host = js "http" ∨ getType host = js "graphql") :
  responseMessages (catch this exception host) = [Member (code exception)]
  ∧ responseMessages (catch this exception host)
    ≠ [Text (defaultExceptionMessage exception)].
Proof.
  assert (responseMessages (catch this exception host)
          = [Member (code exception)]) as ->.
  { destruct Hmapped as [v Hv]. destruct Hhost as [Hhost|Hhost].
    - rewrite (catch_http_mapped _ _ _ _ Hhost Hv).
      cbn. unfold responseMessage, get_message, inherited.
      by rewrite Hnoentry, bool_decide_eq_true_2.
    - rewrite (catch_graphql_mapped _ _ _ _ Hhost Hv).
      cbn. unfold responseMessage, get_message, inherited.
      by rewrite Hnoentry, bool_decide_eq_true_2. }
  done.
Qed.

Lemma inherited_member_becomes_the_message_witness :
  let this := constructor (HttpServer := unit) None
                (Some {[js "toString" := 418]}) None in
  let exception := mkPrismaError (js "toString") example_text in
  let host := mkHost (js "graphql") in
  responseMessages (catch this exception host) = [Member (js "toString")]
  ∧ responseMessages (catch this exception host)
    ≠ [Text (defaultExceptionMessage exception)].
Proof.
  apply inherited_member_becomes_the_message.
  - exists 418. vm_compute. reflexivity.
  - vm_compute. reflexivity.
  - apply (bool_decide_unpack _). vm_compute. exact I.
  - right. reflexivity.
Defined.
